(** * squad: the topic widget and its key bindings

    A shallow embedding of [squad/widgets/topic.py] (the class
    [TopicWidget]) and of the key bindings of [squad/squad.py] (the class
    [Squad]), with the properties of the topic state, of the renderer
    table and of the refresh timer that follow from that code.

    The two class attributes [TopicWidget.topic] and
    [TopicWidget.topic_renderers] are process-wide mutable objects, so they
    are fields of an explicit world that every operation threads through.
    Python exceptions are outcomes: what an operation did to the world
    before it raised stays done. *)

From Stdlib Require Import ZArith.
From stdpp Require Import base strings gmap list.

Open Scope string_scope.
Open Scope list_scope.

(** ** Python values, exceptions and outcomes *)

(** The objects the modelled functions hand back. *)
Inductive PyObject :=
  | PyNone
  | PyStr (s : string).

Inductive Exception :=
  | AssertionError
  | KeyError (key : string)
  | RendererError (msg : string).

Inductive Outcome (A : Type) :=
  | Return (a : A)
  | Raise (e : Exception).
Arguments Return {A} a.
Arguments Raise {A} e.

(** ** The renderers

    One instance of each class of [squad.widgets.topics], as created in
    the dictionary literal of [TopicWidget.topic_renderers]. *)
Inductive TopicRenderer :=
  | Assets
  | Datasets
  | DefinedExchangeRates
  | Instances
  | Merchants
  | Products
  | Projects
  | PersonalUnits
  | ServiceErrors
  | UndefinedExchangeRates
  | Units.

#[global] Instance TopicRenderer_eq_dec : EqDecision TopicRenderer.
Proof. solve_decision. Defined.

(** What the outside can observe of a run: the messages handed to
    [squad.common.warning] and the renderers whose [render] was called. *)
Inductive Effect :=
  | Warning (msg : string)
  | Rendered (r : TopicRenderer).

(** ** Timers registered with the framework *)
Inductive Callback :=
  | Refresh.

Record Timer := { interval : Z; callback : Callback }.

(** A Python dictionary literal: the pairs are stored left to right, a
    later pair replacing an earlier one with the same key. *)
Definition dict_literal {V : Type} (pairs : list (string * V)) : gmap string V :=
  fold_left (fun d kv => <[kv.1 := kv.2]> d) pairs ∅.

(** [TopicWidget.topic_renderers], topic.py lines 28-40. *)
Definition topic_renderers_table : list (string * TopicRenderer) :=
  [ ("assets", Assets);
    ("datasets", Datasets);
    ("defined-exchange-rates", DefinedExchangeRates);
    ("instances", Instances);
    ("merchants", Merchants);
    ("products", Products);
    ("projects", Projects);
    ("personal-units", PersonalUnits);
    ("service-errors", ServiceErrors);
    ("undefined-exchange-rates", UndefinedExchangeRates);
    ("units", Units) ].

Definition topic_renderers : gmap string TopicRenderer :=
  dict_literal topic_renderers_table.

(** The identifiers listed by the specification as the supported set. *)
Definition supported_topics : gset string :=
  {[ "assets"; "datasets"; "defined-exchange-rates"; "instances";
     "merchants"; "products"; "projects"; "personal-units";
     "service-errors"; "undefined-exchange-rates"; "units" ]}.

(** A key binding of the application: the action string and the
    description shown for it. *)
Record Binding := { action : string; description : string }.

(** Modelled from the spec: the Input Dispatcher is the framework's, outside
    this repository. An action string is either a bare name or
    [name('argument')]; the name and the arguments are what the dispatcher
    calls [action_<name>] with. *)
Definition parse_action (act : string) : string * list string :=
  match String.index 0 "(" act with
  | None => (act, [])
  | Some i =>
      let params := String.substring (i + 1) (String.length act - i - 2) act in
      (String.substring 0 i act,
       [String.substring 1 (String.length params - 2) params])
  end.

(** The (key, topic) pairs among key bindings: the keys whose action is
    [topic('...')], each with the topic it names. *)
Definition bound_topics (bs : gmap string Binding) : list (string * string) :=
  omap (fun kb =>
          match parse_action (action kb.2) with
          | (name, [t]) => if decide (name = "topic") then Some (kb.1, t) else None
          | _ => None
          end)
       (map_to_list bs).

(** What can happen to the application, one event at a time. *)
Inductive Op :=
  | OnLoad
  | OnMount
  | Press (key : string)
  | ActionTopic (topic : string)
  | SetTopic (topic : string)
  | Render.

Section Squad.

(** The renderers of [squad.widgets.topics] are leaves outside this
    development: [Panel] is what they produce, [Store] is everything they
    read and write (their cached payloads, the remote services), and
    [renderer_render] is the [render] method of each instance. *)
Context {Panel Store : Type}.
Variable renderer_render : TopicRenderer -> Store -> Outcome Panel * Store.

(** ** The world *)
Record World := {
  TopicWidget_topic : string;
  TopicWidget_topic_renderers : gmap string TopicRenderer;
  bindings : gmap string Binding;
  timers : list Timer;
  store : Store;
  effects : list Effect;
}.

(** The world once the modules are imported: class attributes at the
    values of the class body (topic.py lines 27-40), nothing bound,
    no timer yet. *)
Definition initial (st : Store) : World :=
  {| TopicWidget_topic := "instances";
     TopicWidget_topic_renderers := topic_renderers;
     bindings := ∅;
     timers := [];
     store := st;
     effects := [] |}.

Definition with_topic (t : string) (w : World) : World :=
  {| TopicWidget_topic := t;
     TopicWidget_topic_renderers := TopicWidget_topic_renderers w;
     bindings := bindings w;
     timers := timers w;
     store := store w;
     effects := effects w |}.

Definition with_binding (key : string) (b : Binding) (w : World) : World :=
  {| TopicWidget_topic := TopicWidget_topic w;
     TopicWidget_topic_renderers := TopicWidget_topic_renderers w;
     bindings := <[key := b]> (bindings w);
     timers := timers w;
     store := store w;
     effects := effects w |}.

Definition with_timer (t : Timer) (w : World) : World :=
  {| TopicWidget_topic := TopicWidget_topic w;
     TopicWidget_topic_renderers := TopicWidget_topic_renderers w;
     bindings := bindings w;
     timers := timers w ++ [t];
     store := store w;
     effects := effects w |}.

Definition with_store (st : Store) (w : World) : World :=
  {| TopicWidget_topic := TopicWidget_topic w;
     TopicWidget_topic_renderers := TopicWidget_topic_renderers w;
     bindings := bindings w;
     timers := timers w;
     store := st;
     effects := effects w |}.

Definition with_effect (e : Effect) (w : World) : World :=
  {| TopicWidget_topic := TopicWidget_topic w;
     TopicWidget_topic_renderers := TopicWidget_topic_renderers w;
     bindings := bindings w;
     timers := timers w;
     store := store w;
     effects := effects w ++ [e] |}.

(** ** Computations: state and exceptions *)
Definition M (A : Type) : Type := World -> Outcome A * World.

#[global] Instance M_ret : MRet M := fun A a w => (Return a, w).

#[global] Instance M_bind : MBind M := fun A B k m w =>
  match m w with
  | (Return a, w') => k a w'
  | (Raise e, w') => (Raise e, w')
  end.

Definition raise {A : Type} (e : Exception) : M A := fun w => (Raise e, w).
Definition get : M World := fun w => (Return w, w).
Definition modify (f : World -> World) : M PyObject := fun w => (Return PyNone, f w).

(** The world an operation leaves behind, whatever its outcome. *)
Definition exec {A : Type} (m : M A) (w : World) : World := (m w).2.

(** Modelled from the spec: [squad.common.warning] is not part of the
    sources at hand; the specification has a warning surfaced once to an
    operator-visible side channel, which is the effect log here. *)
Definition warning (msg : string) : M PyObject :=
  modify (with_effect (Warning msg)).

(** ** topic.py *)

(** [TopicWidget.set_topic], topic.py lines 42-50. *)
Definition set_topic (topic : string) : M PyObject :=
  w ← get;
  if decide (topic ∉ dom (TopicWidget_topic_renderers w)) then
    warning ("Unsupported topic: '" +:+ topic +:+ "'");;
    mret PyNone
  else
    modify (with_topic topic).

(** [self.set_interval(interval, callback)] of the framework: the timer
    is registered with the widget. *)
Definition set_interval (i : Z) (c : Callback) : M PyObject :=
  modify (with_timer {| interval := i; callback := c |}).

(** [TopicWidget.on_mount], topic.py lines 52-55. *)
Definition TopicWidget_on_mount : M PyObject :=
  set_interval 2 Refresh.

(** The call [topic_renderers[topic].render()]: the renderer runs on the
    store and the call is observable. *)
Definition call_render (r : TopicRenderer) : M Panel := fun w =>
  let (o, st) := renderer_render r (store w) in
  (o, with_store st (with_effect (Rendered r) w)).

(** [TopicWidget.render], topic.py lines 57-61. *)
Definition render : M Panel :=
  w ← get;
  if decide (TopicWidget_topic w ∈ dom (TopicWidget_topic_renderers w)) then
    match TopicWidget_topic_renderers w !! TopicWidget_topic w with
    | Some r => call_render r
    | None => raise (KeyError (TopicWidget_topic w))
    end
  else raise AssertionError.

(** ** squad.py *)

(** [self.bind(keys, action, description)] of the framework. *)
Definition bind (key act : string) (descr : string) : M PyObject :=
  modify (with_binding key {| action := act; description := descr |}).

(** [Squad.on_load], squad.py lines 26-41. *)
Definition on_load : M PyObject :=
  bind "Q" "quit" "Quit";;
  bind "a" "topic('assets')" "";;
  bind "d" "topic('datasets')" "";;
  bind "i" "topic('instances')" "";;
  bind "m" "topic('merchants')" "";;
  bind "n" "topic('personal-units')" "";;
  bind "o" "topic('units')" "";;
  bind "p" "topic('projects')" "";;
  bind "r" "topic('defined-exchange-rates')" "";;
  bind "s" "topic('service-errors')" "";;
  bind "t" "topic('products')" "";;
  bind "u" "topic('undefined-exchange-rates')" "".

(** [Squad.action_topic], squad.py lines 94-100. *)
Definition action_topic (topic : string) : M PyObject :=
  set_topic topic.

(** Modelled from the spec: the Input Dispatcher hands the argument of a
    [topic] action to [action_topic]; any other action leaves the topic
    widget alone. *)
Definition dispatch (act : string) : M PyObject :=
  match parse_action act with
  | (name, [t]) =>
      if decide (name = "topic") then action_topic t else mret PyNone
  | _ => mret PyNone
  end.

(** Modelled from the spec: a key press runs the action bound to the key;
    a key that is not bound is a no-op at the dispatcher. *)
Definition press (key : string) : M PyObject :=
  w ← get;
  match bindings w !! key with
  | Some b => dispatch (action b)
  | None => mret PyNone
  end.

(** ** Runs *)
Definition step (o : Op) (w : World) : World :=
  match o with
  | OnLoad => exec on_load w
  | OnMount => exec TopicWidget_on_mount w
  | Press key => exec (press key) w
  | ActionTopic t => exec (action_topic t) w
  | SetTopic t => exec (set_topic t) w
  | Render => exec render w
  end.

Definition run (ops : list Op) (w : World) : World :=
  fold_left (fun w o => step o w) ops w.

(** ** The refresh schedule

    [on_mount] hands [self.refresh] to the framework's timer; at each
    firing the framework has the widget rendered. No code of the
    repository stands between [render] and the framework: [render] has no
    handler and neither has [on_mount]. An exception that leaves [render]
    therefore reaches the framework, which panics on it: the application
    is closed and its timers with it. *)
Inductive Status :=
  | Running
  | Stopped (e : Exception).

Record App := { world : World; status : Status }.

(** One firing of the refresh timer. Nothing fires while no timer is
    registered or once the application has stopped. *)
Definition tick (a : App) : App :=
  match status a, timers (world a) with
  | Running, _ :: _ =>
      match render (world a) with
      | (Return _, w) => {| world := w; status := Running |}
      | (Raise e, w) => {| world := w; status := Stopped e |}
      end
  | _, _ => a
  end.

Definition ticks (n : nat) (a : App) : App := Nat.iter n tick a.

(** ** The invariant of the runs

    The renderer table is the one of the class body, the topic is one of
    its keys, every [topic] action that is bound names one of its keys, and
    every timer is the one of [TopicWidget_on_mount]. *)
Record invariant (w : World) : Prop := {
  inv_renderers : TopicWidget_topic_renderers w = topic_renderers;
  inv_topic : TopicWidget_topic w ∈ dom topic_renderers;
  inv_bindings : forall key b t,
    bindings w !! key = Some b ->
    parse_action (action b) = ("topic", [t]) ->
    t ∈ dom topic_renderers;
  inv_timers :
    Forall (fun tm => tm = {| interval := 2; callback := Refresh |}) (timers w);
}.

End Squad.

(** Events through which a topic change can be requested. *)
Definition requests_topic (o : Op) : bool :=
  match o with
  | Press _ | ActionTopic _ | SetTopic _ => true
  | OnLoad | OnMount | Render => false
  end.

(** ** Two renderer behaviours to run the definitions on *)

(** Every renderer fails: the remote call raised and nothing caught it. *)
Definition failing_renderer (r : TopicRenderer) (st : unit) : Outcome string * unit :=
  (Raise (RendererError "fetch failed"), st).

(** Every renderer produces a panel. *)
Definition steady_renderer (r : TopicRenderer) (st : unit) : Outcome string * unit :=
  (Return "panel", st).

(** Every renderer produces a panel and counts the call in the store. *)
Definition counting_renderer (r : TopicRenderer) (st : nat) : Outcome string * nat :=
  (Return "panel", S st).

(** ** Readings of a run

    What the events of a run ask for, to compare the worlds they lead to
    with. *)

#[global] Instance Op_eq_dec : EqDecision Op.
Proof. solve_decision. Defined.

(** The topic a key press asks for under the bindings [bs], if any. *)
Definition bound_topic (bs : gmap string Binding) (key : string) : option string :=
  match bs !! key with
  | Some b =>
      match parse_action (action b) with
      | (name, [t]) => if decide (name = "topic") then Some t else None
      | _ => None
      end
  | None => None
  end.

(** The bindings [on_load] makes when nothing is bound yet. *)
Definition loaded_bindings : gmap string Binding :=
  bindings (exec on_load (initial tt)).

(** The key bindings as squad.py lines 28-41 list them: key, action and
    description. *)
Definition key_bindings : gmap string Binding :=
  dict_literal
    [ ("Q", {| action := "quit"; description := "Quit" |});
      ("a", {| action := "topic('assets')"; description := "" |});
      ("d", {| action := "topic('datasets')"; description := "" |});
      ("i", {| action := "topic('instances')"; description := "" |});
      ("m", {| action := "topic('merchants')"; description := "" |});
      ("n", {| action := "topic('personal-units')"; description := "" |});
      ("o", {| action := "topic('units')"; description := "" |});
      ("p", {| action := "topic('projects')"; description := "" |});
      ("r", {| action := "topic('defined-exchange-rates')"; description := "" |});
      ("s", {| action := "topic('service-errors')"; description := "" |});
      ("t", {| action := "topic('products')"; description := "" |});
      ("u", {| action := "topic('undefined-exchange-rates')"; description := "" |}) ].

(** The message logged for an event that names an unsupported topic
    directly (a call of [set_topic] or of [action_topic]). *)
Definition rejection (o : Op) : option string :=
  match o with
  | SetTopic t | ActionTopic t =>
      if decide (t ∈ dom topic_renderers) then None
      else Some ("Unsupported topic: '" +:+ t +:+ "'")
  | OnLoad | OnMount | Press _ | Render => None
  end.

Definition warning_of (e : Effect) : option string :=
  match e with
  | Warning msg => Some msg
  | Rendered _ => None
  end.

Definition rendered_of (e : Effect) : option TopicRenderer :=
  match e with
  | Warning _ => None
  | Rendered r => Some r
  end.

(** A world without its effect log. *)
Definition forget_effects {Store : Type} (w : @World Store) : @World Store :=
  {| TopicWidget_topic := TopicWidget_topic w;
     TopicWidget_topic_renderers := TopicWidget_topic_renderers w;
     bindings := bindings w;
     timers := timers w;
     store := store w;
     effects := [] |}.

(** ** environment.py *)

Module EnvironmentPy.
Section Holder.

(** [squonk2.environment.Environment] is a class of another package; its
    instances are the elements of [Environment] and [truthy] is their truth
    value, which is what [assert] tests. *)
Context {Environment : Type}.
Variable truthy : Environment -> bool.

(** The module global [_ENVIRONMENT], environment.py line 7. *)
Definition _ENVIRONMENT : option Environment := None.

(** [set_environment], environment.py lines 10-13. *)
Definition set_environment (chosen_env : Environment) (g : option Environment)
  : Outcome PyObject * option Environment :=
  (Return PyNone, Some chosen_env).

(** [get_environment], environment.py lines 16-20. *)
Definition get_environment (g : option Environment)
  : Outcome Environment * option Environment :=
  match g with
  | Some e => if truthy e then (Return e, g) else (Raise AssertionError, g)
  | None => (Raise AssertionError, g)
  end.

(** The calls other modules can make, and the global after a sequence of
    them. *)
Inductive Use :=
  | Set_ (chosen_env : Environment)
  | Get.

Definition call (c : Use) (g : option Environment) : option Environment :=
  match c with
  | Set_ e => (set_environment e g).2
  | Get => (get_environment g).2
  end.

Definition calls (cs : list Use) (g : option Environment) : option Environment :=
  fold_left (fun g c => call c g) cs g.

(** The environment of the last [set_environment] among the calls. *)
Fixpoint last_set (cs : list Use) (acc : option Environment) : option Environment :=
  match cs with
  | [] => acc
  | Set_ e :: cs => last_set cs (Some e)
  | Get :: cs => last_set cs acc
  end.

End Holder.
End EnvironmentPy.

(** ** squad.py: the entry point *)

Module MainPy.

(** What [main] does to the outside, in order. *)
Inductive Call :=
  | RedirectStderr
  | Print (line : string)
  | DmApi_set_api_url (url : string) (verify_ssl_cert : bool)
  | AsApi_set_api_url (url : string) (verify_ssl_cert : bool)
  | Squad_run (title : string) (log : option string).

#[global] Instance Call_eq_dec : EqDecision Call.
Proof. solve_decision. Defined.

(** What can leave a call instead of a value: an instance of [Exception],
    with its [str]; an exception that is not one ([KeyboardInterrupt] and
    the like); [SystemExit] with its code. *)
Inductive Raised :=
  | ExceptionOf (str : string)
  | BaseExceptionOf (str : string)
  | SystemExit (code : Z).

Section Main.

(** The code [main] calls into is outside the repository: what
    [Environment()] gives, what the two URL getters give for an
    environment, how [Squad.run] ends ([None] when it returns), and the
    process environment [os.environ]. Redirecting [sys.stderr], [print] and
    the two [set_api_url] are taken to return. *)
Context {Environment : Type}.
Variable Environment_new : Raised + Environment.
Variable dm_api as_api : Environment -> Raised + string.
Variable Squad_run_end : option Raised.
Variable environ : gmap string string.

(** [_LOG], squad.py line 20. *)
Definition _LOG : option string := environ !! "SQUAD_LOGFILE".

(** [main], squad.py lines 103-132. *)
Definition main (calls : list Call) : (Raised + Z) * list Call :=
  let calls := calls ++ [RedirectStderr] in
  match Environment_new with
  | inl (ExceptionOf ex) =>
      (inl (SystemExit 1), calls ++ [Print ("Error loading environment: " +:+ ex)])
  | inl r => (inl r, calls)
  | inr environment =>
      match dm_api environment with
      | inl r => (inl r, calls)
      | inr dm_url =>
          let calls := calls ++ [DmApi_set_api_url dm_url false] in
          match as_api environment with
          | inl r => (inl r, calls)
          | inr as_url =>
              let calls := calls ++ [AsApi_set_api_url as_url false] in
              let calls := calls ++ [Squad_run "SquAd" _LOG] in
              match Squad_run_end with
              | Some r => (inl r, calls)
              | None => (inr 0%Z, calls)
              end
          end
      end
  end.

(** The module run as a script, squad.py lines 138-142. *)
Definition script (calls : list Call) : (Raised + PyObject) * list Call :=
  match main calls with
  | (inr _RET_VAL, calls) =>
      if decide (_RET_VAL ≠ 0%Z) then (inl (SystemExit _RET_VAL), calls)
      else (inr PyNone, calls)
  | (inl r, calls) => (inl r, calls)
  end.

End Main.
End MainPy.

(** * Properties *)

(** Closes a decidable goal on closed terms by evaluating its decision. *)
Ltac by_evaluation := apply (bool_decide_unpack _); vm_compute; exact I.

Section Properties.

Context {Panel Store : Type}.
Variable R : TopicRenderer -> Store -> Outcome Panel * Store.

Implicit Types (w : @World Store) (t key : string) (ops : list Op).

(** ** The two branches of [set_topic] *)

Lemma set_topic_accepts w t :
  t ∈ dom (TopicWidget_topic_renderers w) ->
  set_topic t w = (Return PyNone, with_topic t w).
Proof.
  intros Hin. unfold set_topic, mbind, M_bind, get.
  destruct (decide (t ∉ dom (TopicWidget_topic_renderers w))) as [Hn | _];
    [by destruct Hn | reflexivity].
Qed.

Lemma set_topic_rejects w t :
  t ∉ dom (TopicWidget_topic_renderers w) ->
  set_topic t w =
    (Return PyNone, with_effect (Warning ("Unsupported topic: '" +:+ t +:+ "'")) w).
Proof.
  intros Hn. unfold set_topic, mbind, M_bind, get.
  destruct (decide (t ∉ dom (TopicWidget_topic_renderers w))) as [_ | Hin];
    [reflexivity | by destruct Hin].
Qed.

Lemma set_topic_returns_None w t : (set_topic t w).1 = Return PyNone.
Proof.
  destruct (decide (t ∈ dom (TopicWidget_topic_renderers w))) as [Hin | Hn].
  - by rewrite set_topic_accepts.
  - by rewrite set_topic_rejects.
Qed.

Lemma set_topic_renderers w t :
  TopicWidget_topic_renderers (exec (set_topic t) w) = TopicWidget_topic_renderers w.
Proof.
  unfold exec.
  destruct (decide (t ∈ dom (TopicWidget_topic_renderers w))) as [Hin | Hn].
  - by rewrite set_topic_accepts.
  - by rewrite set_topic_rejects.
Qed.

(** ** [render] *)

Lemma render_calls_renderer w r :
  TopicWidget_topic_renderers w !! TopicWidget_topic w = Some r ->
  render R w = call_render R r w.
Proof.
  intros Hr. unfold render, mbind, M_bind, get.
  destruct (decide (TopicWidget_topic w ∈ dom (TopicWidget_topic_renderers w)))
    as [_ | Hn].
  - by rewrite Hr.
  - destruct Hn. apply elem_of_dom. by exists r.
Qed.

Lemma call_render_world w r :
  exec (call_render R r) w =
    with_store (R r (store w)).2 (with_effect (Rendered r) w).
Proof.
  unfold exec, call_render.
  by destruct (R r (store w)).
Qed.

(** [render] writes the store and the effect log, nothing else. *)
Lemma render_frame w :
  let w' := exec (render R) w in
  TopicWidget_topic w' = TopicWidget_topic w /\
  TopicWidget_topic_renderers w' = TopicWidget_topic_renderers w /\
  bindings w' = bindings w /\
  timers w' = timers w.
Proof.
  unfold exec, render, mbind, M_bind, get.
  destruct (decide _); [| done].
  destruct (_ !! _) as [r |]; [| done].
  unfold call_render. by destruct (R r (store w)).
Qed.

(** ** The invariant holds along every run *)

Lemma supported_dom t : t ∈ supported_topics -> t ∈ dom topic_renderers.
Proof.
  intros Ht. replace (dom topic_renderers) with supported_topics; [done |].
  apply (bool_decide_unpack (supported_topics = dom topic_renderers)).
  by vm_compute.
Qed.

Lemma invariant_initial (st : Store) : invariant (initial st).
Proof.
  split; simpl.
  - reflexivity.
  - apply supported_dom. set_solver.
  - intros key b t Hb. by rewrite lookup_empty in Hb.
  - constructor.
Qed.

Lemma invariant_set_topic w t : invariant w -> invariant (exec (set_topic t) w).
Proof.
  intros [Hr Ht Hb Htm]. unfold exec.
  destruct (decide (t ∈ dom (TopicWidget_topic_renderers w))) as [Hin | Hn].
  - rewrite set_topic_accepts by done. split; simpl; try done.
    by rewrite <- Hr.
  - rewrite set_topic_rejects by done. by split.
Qed.

Lemma invariant_bind w key act descr :
  (forall t, parse_action act = ("topic", [t]) -> t ∈ dom topic_renderers) ->
  invariant w -> invariant (exec (bind key act descr) w).
Proof.
  intros Hact [Hr Ht Hb Htm]. split; simpl; try done.
  intros key' b t Hlook Hparse.
  apply lookup_insert_Some in Hlook as [[_ <-] | [_ Hlook]].
  - by apply Hact.
  - by eapply Hb.
Qed.

Lemma exec_seq {A B : Type} (m : M A) (k : M B) w :
  (exists a, (m w).1 = Return a) ->
  exec (m ;; k) w = exec k (exec (Store := Store) m w).
Proof.
  intros [a Ha]. unfold exec, mbind, M_bind.
  destruct (m w) as [[a' | e] w']; simpl in *; [done | discriminate].
Qed.

Lemma invariant_on_load w : invariant w -> invariant (exec on_load w).
Proof.
  intros Hw. unfold on_load.
  repeat (rewrite exec_seq by (by eexists)).
  repeat (apply invariant_bind;
          [intros t Ht; vm_compute in Ht; first [discriminate Ht | injection Ht as <-];
           apply supported_dom; set_solver |]).
  exact Hw.
Qed.

Lemma invariant_on_mount w : invariant w -> invariant (exec TopicWidget_on_mount w).
Proof.
  intros [Hr Ht Hb Htm]. split; simpl; try done.
  apply Forall_app. split; [done |]. by repeat constructor.
Qed.

Lemma invariant_press w key : invariant w -> invariant (exec (press key) w).
Proof.
  intros Hw. unfold exec, press, mbind, M_bind, get.
  destruct (bindings w !! key) as [b |]; [| done].
  unfold dispatch. destruct (parse_action (action b)) as [name [| t [| ? ?]]]; try done.
  destruct (decide (name = "topic")); [| done].
  by apply invariant_set_topic.
Qed.

Lemma invariant_render w : invariant w -> invariant (exec (render R) w).
Proof.
  intros [Hr Ht Hb Htm].
  destruct (render_frame w) as (Et & Er & Eb & Etm).
  split; by rewrite ?Et, ?Er, ?Eb, ?Etm.
Qed.

Lemma invariant_step o w : invariant w -> invariant (step R o w).
Proof.
  destruct o; simpl.
  - apply invariant_on_load.
  - apply invariant_on_mount.
  - apply invariant_press.
  - apply invariant_set_topic.
  - apply invariant_set_topic.
  - apply invariant_render.
Qed.

Lemma invariant_run ops w : invariant w -> invariant (run R ops w).
Proof.
  revert w. induction ops as [| o ops IH]; intros w Hw; simpl; [done |].
  apply IH. by apply invariant_step.
Qed.

Lemma invariant_reachable (st : Store) ops : invariant (run R ops (initial st)).
Proof. apply invariant_run, invariant_initial. Qed.

(** ** Further frame facts *)

Lemma step_renderers o w :
  TopicWidget_topic_renderers (step R o w) = TopicWidget_topic_renderers w.
Proof.
  destruct o; simpl; try apply set_topic_renderers.
  - unfold on_load. by repeat (rewrite exec_seq by (by eexists)).
  - reflexivity.
  - unfold exec, press, mbind, M_bind, get.
    destruct (bindings w !! key) as [b |]; [| done].
    unfold dispatch.
    destruct (parse_action (action b)) as [name [| t [| ? ?]]]; try done.
    destruct (decide (name = "topic")); [| done].
    apply set_topic_renderers.
  - apply render_frame.
Qed.

Lemma step_keeps_topic o w :
  requests_topic o = false -> TopicWidget_topic (step R o w) = TopicWidget_topic w.
Proof.
  destruct o; simpl; try discriminate; intros _.
  - unfold on_load. by repeat (rewrite exec_seq by (by eexists)).
  - reflexivity.
  - apply render_frame.
Qed.

Lemma topic_renderers_dom : dom topic_renderers = supported_topics.
Proof.
  apply (bool_decide_unpack (dom topic_renderers = supported_topics)).
  by vm_compute.
Qed.

Lemma supported_cases t :
  t ∈ supported_topics ->
  t ∈ [ "assets"; "datasets"; "defined-exchange-rates"; "instances";
        "merchants"; "products"; "projects"; "personal-units";
        "service-errors"; "undefined-exchange-rates"; "units" ].
Proof.
  unfold supported_topics. rewrite !elem_of_union, !elem_of_singleton.
  rewrite !elem_of_cons. tauto.
Qed.

Lemma topic_renderers_injective k1 k2 r :
  topic_renderers !! k1 = Some r -> topic_renderers !! k2 = Some r -> k1 = k2.
Proof.
  intros H1 H2.
  assert (k1 ∈ supported_topics) as Hk1
    by (rewrite <- topic_renderers_dom; apply elem_of_dom; by exists r).
  assert (k2 ∈ supported_topics) as Hk2
    by (rewrite <- topic_renderers_dom; apply elem_of_dom; by exists r).
  apply supported_cases in Hk1, Hk2.
  repeat (apply elem_of_cons in Hk1 as [-> | Hk1];
          [vm_compute in H1; injection H1 as <-;
           repeat (apply elem_of_cons in Hk2 as [-> | Hk2];
                   [vm_compute in H2; first [discriminate H2 | reflexivity] |]);
           by apply elem_of_nil in Hk2 |]).
  by apply elem_of_nil in Hk1.
Qed.

(** [on_load] binds eleven keys to topics, each key a single character,
    and the topics they name are the eleven keys of the renderer table. *)
Lemma on_load_bound_topics (st : Store) :
  let bound := bound_topics (bindings (exec on_load (initial st))) in
  length bound = 11 /\
  Forall (fun kt => String.length kt.1 = 1) bound /\
  list_to_set bound.*2 = dom topic_renderers.
Proof.
  intros bound.
  assert (bound =
    [("o", "units"); ("s", "service-errors"); ("m", "merchants");
     ("u", "undefined-exchange-rates"); ("i", "instances"); ("a", "assets");
     ("n", "personal-units"); ("r", "defined-exchange-rates");
     ("t", "products"); ("d", "datasets"); ("p", "projects")]) as ->
    by by vm_compute.
  split; [reflexivity |]. split; [by repeat constructor |].
  simpl. rewrite topic_renderers_dom. unfold supported_topics. set_solver.
Qed.

Lemma press_unbound w key :
  bindings w !! key = None -> press key w = (Return PyNone, w).
Proof.
  intros Hk. unfold press, mbind, M_bind, get. by rewrite Hk.
Qed.

Lemma set_topic_last_write w a b :
  a ∈ dom (TopicWidget_topic_renderers w) ->
  b ∈ dom (TopicWidget_topic_renderers w) ->
  TopicWidget_topic (exec (set_topic b) (exec (set_topic a) w)) = b.
Proof.
  intros Ha Hb. unfold exec.
  rewrite (set_topic_accepts w a) by done. simpl.
  by rewrite set_topic_accepts.
Qed.

End Properties.

(** * The specification, claim by claim *)

Section Specification.

Context {Panel Store : Type}.
Variable R : TopicRenderer -> Store -> Outcome Panel * Store.

Implicit Types (w : @World Store) (t key : string) (ops : list Op).

(** C1. After any sequence of events from startup, the topic held by
    [TopicWidget.topic] is a key of [TopicWidget.topic_renderers]; the
    assertion and the table lookup of [render] therefore go through, and
    [render] is the call of the renderer registered for the topic. *)
Theorem topic_always_registered (st : Store) ops :
  let w := run R ops (initial st) in
  TopicWidget_topic w ∈ dom (TopicWidget_topic_renderers w) /\
  exists r,
    TopicWidget_topic_renderers w !! TopicWidget_topic w = Some r /\
    render R w = call_render R r w.
Proof.
  intros w. destruct (invariant_reachable R st ops) as [Hr Ht _ _].
  fold w in Hr, Ht. rewrite Hr. split; [exact Ht |].
  apply elem_of_dom in Ht as [r Hlook]. exists r. split; [exact Hlook |].
  apply render_calls_renderer. by rewrite Hr.
Qed.

(** C2. For a topic that is a key of the renderer table, [set_topic]
    returns normally and the topic read afterwards is that topic, whatever
    the topic was before. *)
Theorem set_topic_then_read w t :
  t ∈ dom (TopicWidget_topic_renderers w) ->
  (set_topic t w).1 = Return PyNone /\
  TopicWidget_topic (exec (set_topic t) w) = t.
Proof.
  intros Hin. unfold exec. by rewrite set_topic_accepts.
Qed.

(** C3. For a topic that is not a key of the renderer table, [set_topic]
    leaves the topic as it was, adds exactly one entry to the effect log,
    the warning naming the topic, so that no renderer is called, and leaves
    the renderers' store alone. *)
Theorem set_topic_unsupported w t :
  t ∉ dom (TopicWidget_topic_renderers w) ->
  TopicWidget_topic (exec (set_topic t) w) = TopicWidget_topic w /\
  effects (exec (set_topic t) w) =
    effects w ++ [Warning ("Unsupported topic: '" +:+ t +:+ "'")] /\
  store (exec (set_topic t) w) = store w.
Proof.
  intros Hn. unfold exec. by rewrite set_topic_rejects.
Qed.

(** C4, as amended. [set_topic] returns [None] for every candidate; whether
    the candidate was accepted shows only in the effect log: nothing is
    logged exactly when the candidate is a key of the renderer table, and
    the one warning is logged exactly when it is not. *)
Theorem set_topic_outcome w t :
  (set_topic t w).1 = Return PyNone /\
  (t ∈ dom (TopicWidget_topic_renderers w) <->
   effects (exec (set_topic t) w) = effects w) /\
  (t ∉ dom (TopicWidget_topic_renderers w) <->
   effects (exec (set_topic t) w) =
     effects w ++ [Warning ("Unsupported topic: '" +:+ t +:+ "'")]).
Proof.
  split; [apply set_topic_returns_None |].
  unfold exec.
  destruct (decide (t ∈ dom (TopicWidget_topic_renderers w))) as [Hin | Hn].
  - rewrite set_topic_accepts by done. simpl. split; split; try done.
    intros E. apply (f_equal length) in E. rewrite length_app in E.
    simpl in E. lia.
  - rewrite set_topic_rejects by done. simpl. split; split; try done.
    intros E. apply (f_equal length) in E. rewrite length_app in E.
    simpl in E. lia.
Qed.

(** When the renderer of the current topic raises, the same exception
    leaves [render]: the call is the only new entry of the effect log, and
    the topic, the renderer table, the key bindings and the timers are as
    before. *)
Lemma render_propagates w r e (st' : Store) :
  TopicWidget_topic_renderers w !! TopicWidget_topic w = Some r ->
  R r (store w) = (Raise e, st') ->
  render R w = (Raise e, with_store st' (with_effect (Rendered r) w)).
Proof.
  intros Hr Hfail. rewrite (render_calls_renderer R w r Hr).
  unfold call_render. by rewrite Hfail.
Qed.

Lemma ticks_stopped n (a : @App Store) e :
  status a = Stopped e -> ticks R n a = a.
Proof.
  intros Ha. induction n as [| n IH]; [done |].
  unfold ticks in *. simpl. rewrite IH. unfold tick. by rewrite Ha.
Qed.


(** C6. The renderer table of the class body has exactly the eleven
    supported topics as keys, no renderer is registered under two keys, no
    event changes the table, and so after any sequence of events from
    startup the table is the one of the class body. *)
Theorem topic_renderers_fixed :
  dom topic_renderers = supported_topics /\
  size topic_renderers = 11 /\
  (forall k1 k2 r,
     topic_renderers !! k1 = Some r -> topic_renderers !! k2 = Some r -> k1 = k2) /\
  (forall o w,
     TopicWidget_topic_renderers (step R o w) = TopicWidget_topic_renderers w) /\
  (forall (st : Store) ops,
     TopicWidget_topic_renderers (run R ops (initial st)) = topic_renderers).
Proof.
  split; [apply topic_renderers_dom |].
  split; [by vm_compute |].
  split; [apply topic_renderers_injective |].
  split; [apply step_renderers |].
  intros st ops. apply (invariant_reachable R st ops).
Qed.

(** C7. At startup the topic is "instances", and it stays so for as long as
    no event asks for a topic. *)
Theorem topic_default (st : Store) ops :
  forallb (fun o => negb (requests_topic o)) ops = true ->
  TopicWidget_topic (run R ops (initial st)) = "instances".
Proof.
  change "instances" with (TopicWidget_topic (initial st)).
  generalize (initial st). induction ops as [| o ops IH]; intros w Hops; [done |].
  simpl in Hops. apply andb_prop in Hops as [Ho Hops].
  simpl. rewrite IH by done. apply step_keeps_topic.
  by apply negb_true_iff in Ho.
Qed.

(** C8, as amended. The refresh period is the constant 2 written in
    [on_mount]: whatever the world, [on_mount] registers one timer, of
    period 2 and calling [refresh], and every timer of every run from
    startup has period 2. *)
Theorem refresh_period_fixed :
  (forall w,
     TopicWidget_on_mount w =
       (Return PyNone, with_timer {| interval := 2; callback := Refresh |} w)) /\
  (forall (st : Store) ops,
     Forall (fun tm => interval tm = 2%Z) (timers (run R ops (initial st)))).
Proof.
  split; [done |].
  intros st ops. destruct (invariant_reachable R st ops) as [_ _ _ Htm].
  eapply Forall_impl; [exact Htm |]. by intros tm ->.
Qed.

(** C10. In a run from startup, a key bound to a [topic] action names a key
    of the renderer table: pressing it returns normally, replaces the topic
    by the one named and logs nothing. *)
Theorem bound_key_accepted (st : Store) ops key b t :
  bindings (run R ops (initial st)) !! key = Some b ->
  parse_action (action b) = ("topic", [t]) ->
  t ∈ dom (TopicWidget_topic_renderers (run R ops (initial st))) /\
  press key (run R ops (initial st)) =
    (Return PyNone, with_topic t (run R ops (initial st))).
Proof.
  intros Hb Hparse.
  destruct (invariant_reachable R st ops) as [Hr _ Hbs _].
  assert (t ∈ dom (TopicWidget_topic_renderers (run R ops (initial st)))) as Ht
    by (rewrite Hr; by eapply Hbs).
  split; [exact Ht |].
  unfold press, mbind, M_bind, get. rewrite Hb.
  unfold dispatch. rewrite Hparse.
  destruct (decide ("topic" = "topic")); [| done].
  by apply set_topic_accepts.
Qed.

End Specification.

(** * The claims on concrete runs *)


(** From the topic "assets", [set_topic] of "units" reads back "units". *)
Lemma set_topic_then_read_witness :
  "units" ∈ dom (TopicWidget_topic_renderers (with_topic "assets" (initial tt))) /\
  (set_topic "units" (with_topic "assets" (initial tt))).1 = Return PyNone /\
  TopicWidget_topic (exec (set_topic "units") (with_topic "assets" (initial tt)))
    = "units".
Proof.
  split; [by_evaluation |].
  apply (set_topic_then_read (with_topic "assets" (initial tt)) "units").
  by_evaluation.
Defined.

(** At startup, [set_topic] of "bogus" keeps "instances" and logs the one
    warning. *)
Lemma set_topic_unsupported_witness :
  ("bogus" ∉ dom (TopicWidget_topic_renderers (initial tt))) /\
  TopicWidget_topic (exec (set_topic "bogus") (initial tt)) = "instances" /\
  effects (exec (set_topic "bogus") (initial tt)) =
    [Warning "Unsupported topic: 'bogus'"] /\
  store (exec (set_topic "bogus") (initial tt)) = tt.
Proof.
  split; [by_evaluation |].
  apply (set_topic_unsupported (initial tt) "bogus").
  by_evaluation.
Defined.

(** The value [set_topic] returns is the same for an accepted and for a
    rejected candidate, so nothing computed from it tells them apart. *)
Lemma set_topic_result_does_not_tell :
  ~ exists classify : Outcome PyObject -> bool,
      forall (w : @World unit) (t : string),
        classify (set_topic t w).1 = true <->
        t ∈ dom (TopicWidget_topic_renderers w).
Proof.
  intros [classify Hc].
  pose proof (Hc (initial tt) "assets") as Ha.
  pose proof (Hc (initial tt) "bogus") as Hb.
  rewrite set_topic_returns_None in Ha, Hb.
  assert ("assets" ∈ dom (TopicWidget_topic_renderers (initial tt))) as Hin
    by by_evaluation.
  assert ("bogus" ∉ dom (TopicWidget_topic_renderers (initial tt))) as Hout
    by by_evaluation.
  apply Hout, Hb, Ha, Hin.
Qed.



(** Loading, mounting and two refreshes leave the topic at "instances". *)
Lemma topic_default_witness :
  forallb (fun o => negb (requests_topic o)) [OnLoad; OnMount; Render; Render] = true /\
  TopicWidget_topic (run steady_renderer [OnLoad; OnMount; Render; Render] (initial tt))
    = "instances".
Proof.
  split; [reflexivity |].
  apply (topic_default steady_renderer tt [OnLoad; OnMount; Render; Render]).
  reflexivity.
Defined.

(** No world makes [on_mount] register a timer of another period. *)
Lemma refresh_period_not_configurable :
  ~ exists (w : @World unit) (p : Z),
      p ≠ 2%Z /\
      timers (exec TopicWidget_on_mount w) =
        timers w ++ [{| interval := p; callback := Refresh |}].
Proof.
  intros (w & p & Hp & Ht). simpl in Ht.
  apply app_inv_head in Ht. injection Ht as Ht. by apply Hp.
Qed.

(** After [on_load], the key "a" is bound to [topic('assets')], and
    pressing it moves the topic to "assets". *)
Lemma bound_key_accepted_witness :
  bindings (run steady_renderer [OnLoad] (initial tt)) !! "a"
    = Some {| action := "topic('assets')"; description := "" |} /\
  parse_action "topic('assets')" = ("topic", ["assets"]) /\
  "assets" ∈ dom (TopicWidget_topic_renderers (run steady_renderer [OnLoad] (initial tt))) /\
  press "a" (run steady_renderer [OnLoad] (initial tt)) =
    (Return PyNone, with_topic "assets" (run steady_renderer [OnLoad] (initial tt))).
Proof.
  split; [by vm_compute |]. split; [by vm_compute |].
  apply (bound_key_accepted steady_renderer tt [OnLoad] "a"
           {| action := "topic('assets')"; description := "" |} "assets").
  - by vm_compute.
  - by vm_compute.
Defined.

(** * Beyond the specification: what else the code shows *)

Section Coverage.

Context {Panel Store : Type}.
Variable R : TopicRenderer -> Store -> Outcome Panel * Store.

Implicit Types (w : @World Store) (t key : string) (ops : list Op).

(** ** Helpers *)

Lemma run_app ops1 ops2 w : run R (ops1 ++ ops2) w = run R ops2 (run R ops1 w).
Proof. apply fold_left_app. Qed.

Lemma press_bound w key :
  press key w =
    match bound_topic (bindings w) key with
    | Some t => set_topic t w
    | None => (Return PyNone, w)
    end.
Proof.
  unfold press, bound_topic, mbind, M_bind, get.
  destruct (bindings w !! key) as [b |]; [| done].
  unfold dispatch.
  destruct (parse_action (action b)) as [name [| t [| ? ?]]]; try done.
  by destruct (decide (name = "topic")).
Qed.

Lemma world_eq w1 w2 :
  TopicWidget_topic w1 = TopicWidget_topic w2 ->
  TopicWidget_topic_renderers w1 = TopicWidget_topic_renderers w2 ->
  bindings w1 = bindings w2 ->
  timers w1 = timers w2 ->
  store w1 = store w2 ->
  effects w1 = effects w2 ->
  w1 = w2.
Proof. destruct w1, w2. simpl. by intros -> -> -> -> -> ->. Qed.

Lemma exec_bind {S : Type} (w : @World S) key act descr :
  exec (bind key act descr) w =
    with_binding key {| action := act; description := descr |} w.
Proof. reflexivity. Qed.

Lemma with_binding_bindings {S : Type} (w : @World S) key b :
  bindings (with_binding key b w) = <[key := b]> (bindings w).
Proof. reflexivity. Qed.

Lemma with_binding_frame w key b :
  TopicWidget_topic (with_binding key b w) = TopicWidget_topic w /\
  TopicWidget_topic_renderers (with_binding key b w) = TopicWidget_topic_renderers w /\
  timers (with_binding key b w) = timers w /\
  store (with_binding key b w) = store w /\
  effects (with_binding key b w) = effects w.
Proof. done. Qed.

Lemma on_load_world w :
  exec on_load w =
    {| TopicWidget_topic := TopicWidget_topic w;
       TopicWidget_topic_renderers := TopicWidget_topic_renderers w;
       bindings := loaded_bindings ∪ bindings w;
       timers := timers w;
       store := store w;
       effects := effects w |}.
Proof.
  unfold on_load. repeat (rewrite exec_seq by (by eexists)).
  rewrite !exec_bind.
  apply world_eq;
    cbn [TopicWidget_topic TopicWidget_topic_renderers bindings timers store effects];
    try (repeat rewrite (proj1 (with_binding_frame _ _ _));
         repeat rewrite (proj1 (proj2 (with_binding_frame _ _ _)));
         repeat rewrite (proj1 (proj2 (proj2 (with_binding_frame _ _ _))));
         repeat rewrite (proj1 (proj2 (proj2 (proj2 (with_binding_frame _ _ _)))));
         repeat rewrite (proj2 (proj2 (proj2 (proj2 (with_binding_frame _ _ _)))));
         reflexivity).
  rewrite !with_binding_bindings.
  unfold loaded_bindings, on_load. repeat (rewrite exec_seq by (by eexists)).
  rewrite !exec_bind, !with_binding_bindings.
  change (bindings (initial tt)) with (∅ : gmap string Binding).
  rewrite <- !insert_union_l. by rewrite (left_id_L ∅ (∪)).
Qed.

Lemma bound_topic_supported w key t :
  invariant w -> bound_topic (bindings w) key = Some t -> t ∈ dom topic_renderers.
Proof.
  intros Hw. unfold bound_topic.
  destruct (bindings w !! key) as [b |] eqn:Hb; [| done].
  destruct (parse_action (action b)) as [name [| t' [| ? ?]]] eqn:Hp; try done.
  destruct (decide (name = "topic")) as [-> |]; [| done].
  intros [= <-]. by eapply (inv_bindings w Hw).
Qed.

(** ** [render] *)

(** X1. [render] on any world, reachable or not: when the topic is not a
    key of the renderer table the assertion fails, no renderer is called and
    the world is untouched; otherwise [render] is the call of the renderer
    registered for the topic. The subscript after the assertion never
    raises [KeyError]. *)
Theorem render_guarded w :
  ((TopicWidget_topic w ∉ dom (TopicWidget_topic_renderers w)) /\
   render R w = (Raise AssertionError, w)) \/
  (exists r,
     TopicWidget_topic_renderers w !! TopicWidget_topic w = Some r /\
     render R w = call_render R r w).
Proof.
  destruct (decide (TopicWidget_topic w ∈ dom (TopicWidget_topic_renderers w)))
    as [Hin | Hn].
  - right. apply elem_of_dom in Hin as [r Hr]. exists r.
    split; [exact Hr |]. by apply render_calls_renderer.
  - left. split; [exact Hn |].
    unfold render, mbind, M_bind, get.
    by destruct (decide (TopicWidget_topic w ∈ dom (TopicWidget_topic_renderers w))).
Qed.

(** ** [on_load] *)

Lemma loaded_bindings_table : loaded_bindings = key_bindings.
Proof. by vm_compute. Qed.

(** X2. [on_load] lays the twelve key bindings of squad.py over whatever
    was bound: each of the twelve keys gets the action and description
    listed there, any other key keeps the binding it had; so loading twice
    is loading once. *)
Theorem on_load_overlays w :
  size key_bindings = 12 /\
  bindings (exec on_load w) = key_bindings ∪ bindings w /\
  (forall key b, key_bindings !! key = Some b ->
                 bindings (exec on_load w) !! key = Some b) /\
  (forall key, key_bindings !! key = None ->
               bindings (exec on_load w) !! key = bindings w !! key) /\
  exec on_load (exec on_load w) = exec on_load w.
Proof.
  split; [by vm_compute |].
  rewrite !on_load_world. simpl. rewrite loaded_bindings_table.
  split; [done |]. split; [| split].
  - intros key b Hk. by apply lookup_union_Some_l.
  - intros key Hk. by apply lookup_union_r.
  - f_equal. rewrite (assoc_L (∪)). by rewrite (idemp_L (∪)).
Qed.

(** ** The effect log of a run *)

Lemma step_effects o w :
  invariant w ->
  exists r,
    topic_renderers !! TopicWidget_topic w = Some r /\
    effects (step R o w) =
      effects w ++
        match o with
        | Render => [Rendered r]
        | _ => match rejection o with Some msg => [Warning msg] | None => [] end
        end.
Proof.
  intros Hw. pose proof (inv_topic w Hw) as Ht.
  apply elem_of_dom in Ht as [r Hr]. exists r. split; [exact Hr |].
  assert (forall t,
    effects (exec (set_topic t) w) =
      effects w ++ match rejection (SetTopic t) with
                   | Some msg => [Warning msg] | None => [] end) as Hset.
  { intros t. unfold exec. simpl.
    destruct (decide (t ∈ dom topic_renderers)) as [Hin | Hn].
    - rewrite set_topic_accepts by (by rewrite (inv_renderers w Hw)).
      simpl. by rewrite app_nil_r.
    - by rewrite set_topic_rejects by (by rewrite (inv_renderers w Hw)). }
  destruct o; cbn [step rejection].
  - rewrite on_load_world. simpl. by rewrite app_nil_r.
  - by rewrite app_nil_r.
  - unfold exec. rewrite press_bound.
    destruct (bound_topic (bindings w) key) as [t |] eqn:Hk;
      [| simpl; by rewrite app_nil_r].
    rewrite set_topic_accepts; [simpl; by rewrite app_nil_r |].
    rewrite (inv_renderers w Hw). by eapply bound_topic_supported.
  - apply Hset.
  - apply Hset.
  - unfold exec.
    rewrite (render_calls_renderer R w r) by (by rewrite (inv_renderers w Hw)).
    unfold call_render. by destruct (R r (store w)).
Qed.

(** X3. The warnings in the log of a run from startup are, in order, the
    messages for the unsupported topics that calls of [set_topic] and
    [action_topic] named: one warning for each such call, and none for any
    key press, refresh, load or mount. *)
Theorem warnings_are_rejections (st : Store) ops :
  omap warning_of (effects (run R ops (initial st))) = omap rejection ops.
Proof.
  change (omap rejection ops)
    with (omap warning_of (effects (initial st)) ++ omap rejection ops).
  pose proof (invariant_initial st) as Hw. revert Hw.
  generalize (initial st). induction ops as [| o ops IH]; intros w Hw.
  - simpl. by rewrite app_nil_r.
  - simpl. rewrite IH by (by apply invariant_step).
    destruct (step_effects o w Hw) as (r & _ & ->).
    rewrite omap_app, <- (assoc_L (++)). f_equal.
    change (omap rejection (o :: ops))
      with (match rejection o with
            | Some msg => msg :: omap rejection ops
            | None => omap rejection ops
            end).
    destruct o; cbn [rejection]; try done; by destruct (decide _).
Qed.

(** X4. Every refresh of a run from startup calls exactly one renderer:
    the log holds as many renderer calls as the run has refreshes. *)
Theorem renders_count (st : Store) ops :
  length (omap rendered_of (effects (run R ops (initial st)))) =
  length (filter (fun o => o = Render) ops).
Proof.
  change (length (filter (fun o => o = Render) ops))
    with (length (omap rendered_of (effects (initial st)))
          + length (filter (fun o => o = Render) ops)).
  pose proof (invariant_initial st) as Hw. revert Hw.
  generalize (initial st). induction ops as [| o ops IH]; intros w Hw.
  - simpl. lia.
  - simpl. rewrite IH by (by apply invariant_step).
    destruct (step_effects o w Hw) as (r & _ & ->).
    rewrite omap_app, length_app.
    destruct o; rewrite ?filter_cons_True by reflexivity;
      rewrite ?filter_cons_False by discriminate; cbn [rejection];
      try destruct (decide _); simpl; lia.
Qed.

(** ** What only a refresh does *)

Lemma set_topic_store w t : store (exec (set_topic t) w) = store w.
Proof.
  unfold exec. destruct (decide (t ∈ dom (TopicWidget_topic_renderers w))).
  - by rewrite set_topic_accepts.
  - by rewrite set_topic_rejects.
Qed.

Lemma step_store o w : o ≠ Render -> store (step R o w) = store w.
Proof.
  intros Ho. destruct o; cbn [step].
  - by rewrite on_load_world.
  - reflexivity.
  - unfold exec. rewrite press_bound.
    destruct (bound_topic (bindings w) key) as [t |]; [| done].
    apply set_topic_store.
  - apply set_topic_store.
  - apply set_topic_store.
  - done.
Qed.

(** X5. Only a refresh reaches the renderers: a run without refresh,
    whatever topics it sets and keys it presses, leaves the renderers'
    store (their caches, the remote services) as it was. Changing the topic
    does not render; the next refresh does. *)
Theorem store_untouched_without_render ops w :
  Render ∉ ops -> store (run R ops w) = store w.
Proof.
  revert w. induction ops as [| o ops IH]; intros w Hn; [done |].
  apply not_elem_of_cons in Hn as [Ho Hn].
  simpl. rewrite IH by done. apply step_store. congruence.
Qed.

(** ** Requests along a run *)

Lemma run_keeps_topic ops w :
  forallb (fun o => negb (requests_topic o)) ops = true ->
  TopicWidget_topic (run R ops w) = TopicWidget_topic w.
Proof.
  revert w. induction ops as [| o ops IH]; intros w Hops; [done |].
  simpl in Hops. apply andb_prop in Hops as [Ho Hops].
  simpl. rewrite IH by done. apply step_keeps_topic.
  by apply negb_true_iff in Ho.
Qed.

(** X6. Once [set_topic] has been called with a supported topic, that
    topic is the current one for as long as no further request comes,
    whatever the run did before and however many refreshes, loads and
    mounts follow. *)
Theorem accepted_topic_persists (st : Store) ops t rest :
  t ∈ dom topic_renderers ->
  forallb (fun o => negb (requests_topic o)) rest = true ->
  TopicWidget_topic (run R (ops ++ SetTopic t :: rest) (initial st)) = t.
Proof.
  intros Ht Hrest. rewrite run_app. simpl.
  rewrite run_keeps_topic by done.
  unfold exec. rewrite set_topic_accepts; [done |].
  by rewrite (inv_renderers _ (invariant_reachable R st ops)).
Qed.

Lemma forget_step o w :
  forget_effects (step R o w) = forget_effects (step R o (forget_effects w)).
Proof.
  assert (forall t, forget_effects (exec (set_topic t) w) =
                    forget_effects (exec (set_topic t) (forget_effects w))) as Hset.
  { intros t. unfold exec.
    destruct (decide (t ∈ dom (TopicWidget_topic_renderers w))) as [Hin | Hn].
    - by rewrite !set_topic_accepts by done.
    - by rewrite !set_topic_rejects by done. }
  destruct o; cbn [step].
  - by rewrite !on_load_world.
  - done.
  - unfold exec. rewrite !press_bound. simpl.
    destruct (bound_topic (bindings w) key) as [t |]; [apply Hset | done].
  - apply Hset.
  - apply Hset.
  - unfold exec, render, mbind, M_bind, get. simpl.
    destruct (decide _); [| done].
    destruct (_ !! _) as [r |]; [| done].
    unfold call_render. simpl. by destruct (R r (store w)).
Qed.

Lemma forget_rejected o w :
  invariant w -> is_Some (rejection o) -> forget_effects (step R o w) = forget_effects w.
Proof.
  intros Hw [msg Hmsg].
  destruct o; cbn [step rejection] in *; try done;
    (destruct (decide (topic ∈ dom topic_renderers)) as [| Hn]; [done |];
     unfold exec; by rewrite set_topic_rejects by (by rewrite (inv_renderers w Hw))).
Qed.

Lemma forget_run ops w1 w2 :
  invariant w1 ->
  forget_effects w1 = forget_effects w2 ->
  forget_effects (run R ops w1) =
  forget_effects (run R (filter (fun o => rejection o = None) ops) w2).
Proof.
  revert w1 w2. induction ops as [| o ops IH]; intros w1 w2 Hw E; [done |].
  destruct (rejection o) as [msg |] eqn:Hrej.
  - rewrite filter_cons_False by (by rewrite Hrej). simpl.
    apply IH; [by apply invariant_step |].
    rewrite <- E. apply forget_rejected; [done | by rewrite Hrej].
  - rewrite filter_cons_True by done. simpl.
    apply IH; [by apply invariant_step |].
    by rewrite forget_step, E, <- forget_step.
Qed.

(** X7. Requests for unsupported topics change nothing but the log: a run
    from startup ends, the effect log apart, in the world of the same run
    with those requests left out. *)
Theorem rejected_requests_are_noops (st : Store) ops :
  forget_effects (run R ops (initial st)) =
  forget_effects (run R (filter (fun o => rejection o = None) ops) (initial st)).
Proof. apply forget_run; [apply invariant_initial | done]. Qed.

(** ** Keys and topics *)

(** X8. Every supported topic has its key: after [on_load], whatever was
    bound before, each key of the renderer table is the topic that the
    press of some single-character key sets. *)
Theorem every_topic_has_key w t :
  TopicWidget_topic_renderers w = topic_renderers ->
  t ∈ dom topic_renderers ->
  exists key,
    String.length key = 1 /\
    press key (exec on_load w) = (Return PyNone, with_topic t (exec on_load w)).
Proof.
  intros Hr Ht.
  assert (exists key, String.length key = 1 /\
                      bound_topic loaded_bindings key = Some t) as (key & Hlen & Hk).
  { rewrite topic_renderers_dom in Ht. apply supported_cases in Ht.
    repeat (apply elem_of_cons in Ht as [-> | Ht];
            [first [ by exists "a" | by exists "d" | by exists "r" | by exists "i"
                   | by exists "m" | by exists "t" | by exists "p" | by exists "n"
                   | by exists "s" | by exists "u" | by exists "o" ] |]).
    by apply elem_of_nil in Ht. }
  exists key. split; [exact Hlen |].
  rewrite press_bound.
  assert (bound_topic (bindings (exec on_load w)) key = Some t) as ->.
  { unfold bound_topic in *. rewrite on_load_world. simpl.
    destruct (loaded_bindings !! key) as [b |] eqn:Hb; [| done].
    by rewrite (lookup_union_Some_l _ _ _ _ Hb). }
  apply set_topic_accepts. rewrite on_load_world. simpl. by rewrite Hr.
Qed.

(** ** Timers *)

(** X9. Each mount registers one more timer: after a run from startup the
    timers are as many as the run has mounts, each of period 2 and calling
    [refresh]; no other event adds or removes a timer. *)
Theorem timers_count (st : Store) ops :
  timers (run R ops (initial st)) =
  replicate (length (filter (fun o => o = OnMount) ops))
            {| interval := 2; callback := Refresh |}.
Proof.
  assert (forall w,
    timers (run R ops w) =
    timers w ++ replicate (length (filter (fun o => o = OnMount) ops))
                          {| interval := 2; callback := Refresh |}) as H.
  { induction ops as [| o ops IH]; intros w; simpl.
    - by rewrite app_nil_r.
    - rewrite IH.
      destruct o; rewrite ?filter_cons_True by done;
        rewrite ?filter_cons_False by done; cbn [step length replicate].
      + by rewrite on_load_world.
      + simpl. by rewrite <- (assoc_L (++)).
      + f_equal. unfold exec. rewrite press_bound.
        destruct (bound_topic (bindings w) key) as [t |]; [| done].
        destruct (decide (t ∈ dom (TopicWidget_topic_renderers w))).
        * by rewrite set_topic_accepts.
        * by rewrite set_topic_rejects.
      + f_equal. unfold exec.
        destruct (decide (topic ∈ dom (TopicWidget_topic_renderers w))).
        * by rewrite set_topic_accepts.
        * by rewrite set_topic_rejects.
      + f_equal. unfold exec.
        destruct (decide (topic ∈ dom (TopicWidget_topic_renderers w))).
        * by rewrite set_topic_accepts.
        * by rewrite set_topic_rejects.
      + f_equal. apply render_frame. }
  apply H.
Qed.

End Coverage.

(** ** environment.py *)

Section EnvironmentHolder.

Import EnvironmentPy.

Context {Environment : Type}.
Variable truthy : Environment -> bool.

Implicit Types (g : option Environment) (e : Environment)
  (cs : list (@Use Environment)).

(** X10. What [set_environment] stores is what [get_environment] returns,
    whatever was stored before, for an environment that counts as true; and
    [get_environment] leaves it stored. *)
Theorem set_then_get g e :
  truthy e = true ->
  get_environment truthy (set_environment e g).2 = (Return e, Some e).
Proof. intros He. simpl. by rewrite He. Qed.

Lemma calls_last_set cs g : calls truthy cs g = last_set cs g.
Proof.
  revert g. induction cs as [| c cs IH]; intros g; [done |].
  simpl. rewrite IH. destruct c; simpl.
  - reflexivity.
  - destruct g as [e |]; [| done]. simpl. by destruct (truthy e).
Qed.

(** X11. After any sequence of calls from import, [get_environment]
    gives the environment of the last [set_environment], earlier ones being
    overwritten and its own calls changing nothing; with no
    [set_environment] so far (or a last one that counts as false) it raises
    [AssertionError]. *)
Theorem get_after_calls cs :
  (get_environment truthy (calls truthy cs _ENVIRONMENT)).1 =
    match last_set cs None with
    | Some e => if truthy e then Return e else Raise AssertionError
    | None => Raise AssertionError
    end.
Proof.
  rewrite calls_last_set. unfold _ENVIRONMENT.
  destruct (last_set cs None) as [e |]; [| done].
  simpl. by destruct (truthy e).
Qed.

End EnvironmentHolder.

(** ** squad.py: [main] *)

Section EntryPoint.

Import MainPy.

Context {Environment : Type}.
Variable Environment_new : Raised + Environment.
Variable dm_api as_api : Environment -> Raised + string.
Variable Squad_run_end : option Raised.
Variable environ : gmap string string.

#[local] Abbreviation main_ := (main Environment_new dm_api as_api Squad_run_end environ).
#[local] Abbreviation script_ := (script Environment_new dm_api as_api Squad_run_end environ).

Implicit Types (calls new : list Call).

(** X12. [main] returns no value but 0, so the [sys.exit(_RET_VAL)] of the
    script never runs: the script ends as [main] does, normally when [main]
    returns and with whatever left [main] otherwise. *)
Theorem main_returns_zero calls :
  ((main_ calls).1 = inr 0%Z \/ exists r, (main_ calls).1 = inl r) /\
  script_ calls =
    (match (main_ calls).1 with inr _ => inr PyNone | inl r => inl r end,
     (main_ calls).2).
Proof.
  unfold script, main.
  destruct Environment_new as [[ex | s | c] | env]; simpl; eauto.
  destruct (dm_api env) as [r | dm_url]; simpl; eauto.
  destruct (as_api env) as [r | as_url]; simpl; eauto.
  destruct Squad_run_end as [r |]; simpl; eauto.
Qed.

Lemma main_history calls :
  (main_ calls).1 = (main_ []).1 /\ (main_ calls).2 = calls ++ (main_ []).2.
Proof.
  unfold main.
  destruct Environment_new as [[ex | s | c] | env]; simpl;
    rewrite <- ?(assoc_L (++)); try done.
  destruct (dm_api env) as [r | dm_url]; simpl;
    rewrite <- ?(assoc_L (++)); try done.
  destruct (as_api env) as [r | as_url]; simpl;
    rewrite <- ?(assoc_L (++)); try done.
  destruct Squad_run_end as [r |]; simpl; by rewrite <- ?(assoc_L (++)).
Qed.

(** X13. The application runs only once the environment has loaded and
    both API URLs have been set from it, certificate verification off: if
    [main] ran the application, then what it did is, in this order, the
    redirection of the standard error stream, the two [set_api_url] and the
    one run, titled "SquAd" and logging to the file named by
    [SQUAD_LOGFILE], if any. *)
Theorem app_runs_after_urls calls new title log :
  (main_ calls).2 = calls ++ new ->
  Squad_run title log ∈ new ->
  exists env dm_url as_url,
    Environment_new = inr env /\
    dm_api env = inr dm_url /\
    as_api env = inr as_url /\
    new = [RedirectStderr;
           DmApi_set_api_url dm_url false;
           AsApi_set_api_url as_url false;
           Squad_run "SquAd" (environ !! "SQUAD_LOGFILE")].
Proof.
  intros E Hin.
  assert (new = (main_ []).2) as ->.
  { apply (app_inv_head calls). rewrite <- E. apply main_history. }
  clear E. revert Hin. unfold main.
  destruct Environment_new as [[ex | s | c] | env]; simpl;
    try (intros Hin;
         repeat (apply elem_of_cons in Hin as [Hin | Hin]; [discriminate Hin |]);
         by apply elem_of_nil in Hin).
  destruct (dm_api env) as [r | dm_url] eqn:Hdm; simpl;
    try (intros Hin;
         repeat (apply elem_of_cons in Hin as [Hin | Hin]; [discriminate Hin |]);
         by apply elem_of_nil in Hin).
  destruct (as_api env) as [r | as_url] eqn:Has; simpl;
    try (intros Hin;
         repeat (apply elem_of_cons in Hin as [Hin | Hin]; [discriminate Hin |]);
         by apply elem_of_nil in Hin).
  intros _. exists env, dm_url, as_url.
  repeat split; try done. by destruct Squad_run_end.
Qed.

(** X14. When [Environment()] raises an [Exception], the script prints
    the one line naming it and ends in [SystemExit] with code 1; before
    that it has redirected the standard error stream, and it has neither
    set an API URL nor run the application. *)
Theorem environment_failure_exits calls ex :
  Environment_new = inl (ExceptionOf ex) ->
  script_ calls =
    (inl (SystemExit 1),
     calls ++ [RedirectStderr; Print ("Error loading environment: " +:+ ex)]).
Proof.
  intros E. unfold script, main. rewrite E. simpl.
  by rewrite <- (assoc_L (++)).
Qed.

(** X15. Whatever happens, the first thing [main] does is to redirect
    the standard error stream, it prints at most the line of a failed
    load, and it never sets an API URL with certificate verification on. *)
Theorem main_redirects_first calls :
  exists rest,
    (main_ calls).2 = calls ++ RedirectStderr :: rest /\
    Forall (fun c =>
              match c with
              | DmApi_set_api_url _ verify | AsApi_set_api_url _ verify =>
                  verify = false
              | Print line =>
                  exists ex, Environment_new = inl (ExceptionOf ex) /\
                             line = "Error loading environment: " +:+ ex
              | RedirectStderr => False
              | Squad_run _ _ => True
              end) rest.
Proof.
  destruct (main_history calls) as [_ ->]. unfold main.
  destruct Environment_new as [[ex | s | c] | env]; simpl;
    try (eexists; split; [reflexivity |]; repeat constructor; by eauto).
  destruct (dm_api env) as [r | dm_url]; simpl;
    try (eexists; split; [reflexivity |]; by repeat constructor).
  destruct (as_api env) as [r | as_url]; simpl;
    try (eexists; split; [reflexivity |]; by repeat constructor).
  destruct Squad_run_end as [r |]; simpl;
    eexists; (split; [reflexivity |]); by repeat constructor.
Qed.

End EntryPoint.

(** * The further properties on concrete runs *)

(** Loading, a key press, a rejected request and a mount leave the count of
    renderer calls at 7. *)
Lemma store_untouched_without_render_witness :
  (Render ∉ [OnLoad; Press "a"; SetTopic "bogus"; OnMount]) /\
  store (run counting_renderer [OnLoad; Press "a"; SetTopic "bogus"; OnMount] (initial 7))
    = 7.
Proof.
  split; [by_evaluation |].
  apply (store_untouched_without_render counting_renderer
           [OnLoad; Press "a"; SetTopic "bogus"; OnMount] (initial 7)).
  by_evaluation.
Defined.

(** After "units", [set_topic] of "assets" holds through two refreshes and
    a mount. *)
Lemma accepted_topic_persists_witness :
  "assets" ∈ dom topic_renderers /\
  forallb (fun o => negb (requests_topic o)) [Render; OnMount; Render] = true /\
  TopicWidget_topic
    (run steady_renderer
         ([OnLoad; SetTopic "units"] ++ SetTopic "assets" :: [Render; OnMount; Render])
         (initial tt)) = "assets".
Proof.
  split; [by_evaluation |]. split; [reflexivity |].
  apply (accepted_topic_persists steady_renderer tt [OnLoad; SetTopic "units"]
           "assets" [Render; OnMount; Render]).
  - by_evaluation.
  - reflexivity.
Defined.

(** At startup, "products" has a key. *)
Lemma every_topic_has_key_witness :
  TopicWidget_topic_renderers (initial tt) = topic_renderers /\
  "products" ∈ dom topic_renderers /\
  exists key,
    String.length key = 1 /\
    press key (exec on_load (initial tt)) =
      (Return PyNone, with_topic "products" (exec on_load (initial tt))).
Proof.
  split; [reflexivity |]. split; [by_evaluation |].
  apply (every_topic_has_key (initial tt) "products").
  - reflexivity.
  - by_evaluation.
Defined.

(** With environments named by strings, all counting as true: "new" set
    over "old" is what is got. *)
Lemma set_then_get_witness :
  (fun _ : string => true) "new" = true /\
  EnvironmentPy.get_environment (fun _ : string => true)
    (EnvironmentPy.set_environment "new" (Some "old")).2 = (Return "new", Some "new").
Proof.
  split; [reflexivity |].
  apply (set_then_get (fun _ : string => true) (Some "old") "new").
  reflexivity.
Defined.

(** A start that goes well, logging to squad.log. *)
Lemma app_runs_after_urls_witness :
  (MainPy.main (inr "env") (fun _ : string => inr "https://dm/api")
     (fun _ : string => inr "https://as/api") None
     {[ "SQUAD_LOGFILE" := "squad.log" ]} []).2 =
    [] ++ [MainPy.RedirectStderr;
           MainPy.DmApi_set_api_url "https://dm/api" false;
           MainPy.AsApi_set_api_url "https://as/api" false;
           MainPy.Squad_run "SquAd" (Some "squad.log")] /\
  exists env dm_url as_url,
    @inr MainPy.Raised string "env" = inr env /\
    @inr MainPy.Raised string "https://dm/api" = inr dm_url /\
    @inr MainPy.Raised string "https://as/api" = inr as_url /\
    [MainPy.RedirectStderr;
     MainPy.DmApi_set_api_url "https://dm/api" false;
     MainPy.AsApi_set_api_url "https://as/api" false;
     MainPy.Squad_run "SquAd" (Some "squad.log")] =
    [MainPy.RedirectStderr;
     MainPy.DmApi_set_api_url dm_url false;
     MainPy.AsApi_set_api_url as_url false;
     MainPy.Squad_run "SquAd"
       (({[ "SQUAD_LOGFILE" := "squad.log" ]} : gmap string string) !! "SQUAD_LOGFILE")].
Proof.
  split; [by vm_compute |].
  apply (app_runs_after_urls (inr "env") (fun _ : string => inr "https://dm/api")
           (fun _ : string => inr "https://as/api") None
           {[ "SQUAD_LOGFILE" := "squad.log" ]} []
           [MainPy.RedirectStderr;
            MainPy.DmApi_set_api_url "https://dm/api" false;
            MainPy.AsApi_set_api_url "https://as/api" false;
            MainPy.Squad_run "SquAd" (Some "squad.log")]
           "SquAd" (Some "squad.log")).
  - by vm_compute.
  - by_evaluation.
Defined.

(** A start whose environment does not load. *)
Lemma environment_failure_exits_witness :
  @inl MainPy.Raised string (MainPy.ExceptionOf "no environment file")
    = inl (MainPy.ExceptionOf "no environment file") /\
  MainPy.script (inl (MainPy.ExceptionOf "no environment file"))
    (fun _ : string => inr "https://dm/api")
    (fun _ : string => inr "https://as/api") None ∅ [] =
    (inl (MainPy.SystemExit 1),
     [] ++ [MainPy.RedirectStderr;
            MainPy.Print ("Error loading environment: " +:+ "no environment file")]).
Proof.
  split; [reflexivity |].
  apply (environment_failure_exits (inl (MainPy.ExceptionOf "no environment file"))
           (fun _ : string => inr "https://dm/api")
           (fun _ : string => inr "https://as/api") None ∅ []
           "no environment file").
  reflexivity.
Defined.
